(** * The Zabbix Terraform provider: the Application resource and data source

    A shallow embedding of package [provider]: the provider definition with
    providerConfigure, and the application resource.  The handlers are
    straight-line Go code over two foreign objects: the [*schema.ResourceData]
    of the plugin SDK and the [*zabbix.API] client.  Neither belongs to the
    repository, so both are interfaces here: a handler is a tree of calls
    ([Prog]), and [run] executes it against any implementation of the two
    interfaces, recording every call with its answer. *)

From stdpp Require Import gmap strings list fin_maps pretty.

Open Scope string_scope.
Open Scope list_scope.
Open Scope nat_scope.

(** ** Data *)

(** Go's [interface{}] values, as far as the handlers see them: strings and
    booleans read from the configuration, [nil], and the
    [map[string]interface{}] that holds a lookup filter. *)
#[warnings="-register-all"]
Inductive value : Type :=
| VNil
| VString (s : string)
| VBool (b : bool)
| VMap (m : gmap string value).

(** [zabbix.Params] is [map[string]interface{}]. *)
Abbreviation Params := (gmap string value).

(** [zabbix.Application], the fields the provider touches. *)
Record Application : Type := mkApplication {
  ApplicationID : string;
  HostID : string;
  Name : string;
}.

(** Go [error] values: the ones the provider makes with [errors.New], and the
    ones that are made elsewhere (by the client library). *)
Inductive error : Type :=
| errors_New (text : string)
| foreign_error (code : Z) (text : string).

(** Modelled from the spec: the writer [stderr] that providerConfigure hands
    to [logger.New] is a variable declared elsewhere in the package; it is a
    name here, next to the other standard stream. *)
Inductive writer : Type := stderr | stdout.

(** [*log.Logger] as built by [logger.New(out, prefix, flags)]. *)
Record Logger : Type := logger_New {
  logger_out : writer;
  logger_prefix : string;
  logger_flags : Z;
}.

(** [log.LstdFlags = Ldate | Ltime]. *)
Definition logger_LstdFlags : Z := Z.lor 1 2.

(** [zabbix.Config]. *)
Record Config : Type := mkConfig {
  Url : string;
  TlsNoVerify : bool;
  Log : Logger;
  Serialize : bool;
}.

(** Modelled from the spec: the package logger [log] is declared elsewhere
    in the package.  The spec gives logging no part in any behaviour, so a
    call of [log.Trace] or [log.Debug] is kept as a call with its level and
    format that answers nothing and changes nothing. *)
Inductive level : Type := level_Trace | level_Debug.

(** ** Calls

    Every effect of a handler is a call on [d], on the client or on the
    logger.  [API] is the type of client handles ([*zabbix.API]). *)
Section Calls.
Context {API : Type}.

Inductive Call : Type :=
(* d *schema.ResourceData *)
| d_Get (key : string)
| d_GetOk (key : string)
| d_Id
| d_SetId (v : string)
| d_Set (key : string) (v : value)
(* package github.com/tpretz/go-zabbix-api *)
| zabbix_NewAPI (c : Config)
| api_Login (api : API) (user password : string)
| api_ApplicationsCreate (api : API) (apps : list Application)
| api_ApplicationsGet (api : API) (params : Params)
| api_ApplicationsDeleteByIds (api : API) (ids : list string)
(* the package logger; the arguments after the format are not kept *)
| log_printf (lvl : level) (format : string).

(** What a call gives back.  [ApplicationsCreate] writes the assigned ids into
    the slice it was given, so its answer carries the slice as the caller
    finds it afterwards, next to the error. *)
Definition answer (c : Call) : Type :=
  match c with
  | d_Get _ => value
  | d_GetOk _ => (value * bool)%type
  | d_Id => string
  | d_SetId _ => unit
  | d_Set _ _ => option error
  | zabbix_NewAPI _ => API
  | api_Login _ _ _ => (string * option error)%type
  | api_ApplicationsCreate _ _ => (list Application * option error)%type
  | api_ApplicationsGet _ _ => (list Application * option error)%type
  | api_ApplicationsDeleteByIds _ _ => option error
  | log_printf _ _ => unit
  end.

(** A handler: it returns, panics, or makes a call and goes on with the
    answer. *)
Inductive Prog (A : Type) : Type :=
| Ret (a : A)
| Panic (msg : string)
| Vis (c : Call) (k : answer c -> Prog A).

Global Arguments Ret {A} a.
Global Arguments Panic {A} msg.
Global Arguments Vis {A} c k.

Fixpoint bind {A B : Type} (p : Prog A) (f : A -> Prog B) : Prog B :=
  match p with
  | Ret a => f a
  | Panic msg => Panic msg
  | Vis c k => Vis c (fun r => bind (k r) f)
  end.

Definition call (c : Call) : Prog (answer c) := Vis c Ret.

End Calls.

Global Arguments Call : clear implicits.
Global Arguments Prog : clear implicits.

Declare Scope prog_scope.
Delimit Scope prog_scope with prog.
Notation "x <- p ;; q" := (bind p (fun x => q))
  (at level 100, p at next level, right associativity) : prog_scope.
Notation "p ;;; q" := (bind p (fun _ => q))
  (at level 100, right associativity) : prog_scope.

(** ** The two foreign interfaces *)

(** The part of [*schema.ResourceData] the handlers use, on a state [D]. *)
Class ResourceData (D : Type) : Type := {
  Get : D -> string -> value;
  GetOk : D -> string -> value * bool;
  Id : D -> string;
  SetId : string -> D -> D;
  SetField : string -> value -> D -> option error * D;
}.

(** The part of the client library the handlers use.  [S] is everything a
    call can depend on and change: the remote server, the session. *)
Record Client (API S : Type) : Type := {
  NewAPI : Config -> S -> API * S;
  Login : API -> string -> string -> S -> (string * option error) * S;
  ApplicationsCreate :
    API -> list Application -> S -> (list Application * option error) * S;
  ApplicationsGet :
    API -> Params -> S -> (list Application * option error) * S;
  ApplicationsDeleteByIds : API -> list string -> S -> option error * S;
}.

Global Arguments NewAPI {API S} _ _ _.
Global Arguments Login {API S} _ _ _ _ _.
Global Arguments ApplicationsCreate {API S} _ _ _ _.
Global Arguments ApplicationsGet {API S} _ _ _ _.
Global Arguments ApplicationsDeleteByIds {API S} _ _ _ _.

(** A callee that is handed a slice can overwrite its elements, not change
    the length its caller sees. *)
Fixpoint write_back {A : Type} (old new : list A) : list A :=
  match old, new with
  | [], _ => []
  | _ :: _, [] => old
  | _ :: old', n :: new' => n :: write_back old' new'
  end.

(** ** Running a handler *)

(** A call that was made, with its answer. *)
Inductive event (API : Type) : Type :=
| Ev (c : Call API) (r : answer c).

Global Arguments Ev {API} c r.

(** What a run works on: the resource data [d] and the client's side. *)
Record World (D S : Type) : Type := mkWorld { rd : D; remote : S }.

Global Arguments mkWorld {D S} _ _.
Global Arguments rd {D S} _.
Global Arguments remote {D S} _.

Inductive outcome (A : Type) : Type :=
| Returned (a : A)
| Panicked (msg : string).

Global Arguments Returned {A} a.
Global Arguments Panicked {A} msg.

(** The result of a run: how it ended, the world it left, the calls it made
    in order. *)
Record Result (API D S A : Type) : Type := mkResult {
  ended : outcome A;
  final : World D S;
  events : list (event API);
}.

Global Arguments mkResult {API D S A} _ _ _.
Global Arguments ended {API D S A} _.
Global Arguments final {API D S A} _.
Global Arguments events {API D S A} _.

Definition after {API D S A : Type} (e : event API) (r : Result API D S A)
  : Result API D S A :=
  mkResult (ended r) (final r) (e :: events r).

Section Run.
Context {D : Type} {RD : ResourceData D} {API S : Type} (client : Client API S).

Definition handle (c : Call API) (w : World D S) : answer c * World D S :=
  match c return answer c * World D S with
  | d_Get k => (Get (rd w) k, w)
  | d_GetOk k => (GetOk (rd w) k, w)
  | d_Id => (Id (rd w), w)
  | d_SetId v => (tt, mkWorld (SetId v (rd w)) (remote w))
  | d_Set k v =>
      let r := SetField k v (rd w) in (fst r, mkWorld (snd r) (remote w))
  | zabbix_NewAPI c =>
      let r := NewAPI client c (remote w) in (fst r, mkWorld (rd w) (snd r))
  | api_Login api u p =>
      let r := Login client api u p (remote w) in
      (fst r, mkWorld (rd w) (snd r))
  | api_ApplicationsCreate api apps =>
      let r := ApplicationsCreate client api apps (remote w) in
      ((write_back apps (fst (fst r)), snd (fst r)), mkWorld (rd w) (snd r))
  | api_ApplicationsGet api params =>
      let r := ApplicationsGet client api params (remote w) in
      (fst r, mkWorld (rd w) (snd r))
  | api_ApplicationsDeleteByIds api ids =>
      let r := ApplicationsDeleteByIds client api ids (remote w) in
      (fst r, mkWorld (rd w) (snd r))
  | log_printf _ _ => (tt, w)
  end.

Fixpoint run {A : Type} (p : Prog API A) (w : World D S) : Result API D S A :=
  match p with
  | Ret a => mkResult (Returned a) w []
  | Panic msg => mkResult (Panicked msg) w []
  | Vis c k =>
      let r := handle c w in after (Ev c (fst r)) (run (k (fst r)) (snd r))
  end.

End Run.

(** ** Package provider

    A handler receives [d *schema.ResourceData] and [m interface{}].  The
    calls on [d] go to the one resource data of the run.  [m] is what
    providerConfigure returned, a client handle, so it is typed [API] and its
    type assertion to [*zabbix.API] is the identity. *)
Section Provider.
Context {API : Type}.

Local Open Scope prog_scope.

(** [v.(string)] and [v.(bool)]: a failed type assertion panics. *)
Definition assert_string (v : value) : Prog API string :=
  match v with
  | VString s => Ret s
  | _ => Panic "interface conversion: interface {} is not string"
  end.

Definition assert_bool (v : value) : Prog API bool :=
  match v with
  | VBool b => Ret b
  | _ => Panic "interface conversion: interface {} is not bool"
  end.

(** The calls, as the handlers write them. *)
Definition do_Get (key : string) : Prog API value := call (d_Get key).

Definition do_GetOk (key : string) : Prog API (value * bool) :=
  call (d_GetOk key).

Definition do_Id : Prog API string := call d_Id.

Definition do_SetId (v : string) : Prog API unit := call (d_SetId v).

Definition do_Set (key : string) (v : value) : Prog API (option error) :=
  call (d_Set key v).

Definition do_NewAPI (c : Config) : Prog API API := call (zabbix_NewAPI c).

Definition do_Login (api : API) (user password : string)
  : Prog API (string * option error) :=
  call (api_Login api user password).

Definition do_ApplicationsCreate (api : API) (apps : list Application)
  : Prog API (list Application * option error) :=
  call (api_ApplicationsCreate api apps).

Definition do_ApplicationsGet (api : API) (params : Params)
  : Prog API (list Application * option error) :=
  call (api_ApplicationsGet api params).

Definition do_ApplicationsDeleteByIds (api : API) (ids : list string)
  : Prog API (option error) :=
  call (api_ApplicationsDeleteByIds api ids).

Definition log_Trace (format : string) : Prog API unit :=
  call (log_printf level_Trace format).

Definition log_Debug (format : string) : Prog API unit :=
  call (log_printf level_Debug format).

(** providerConfigure configure this provider *)
Definition providerConfigure : Prog API (API * option error) :=
  log_Trace "Started zabbix provider init" ;;;
  let l := logger_New stderr "[DEBUG] " logger_LstdFlags in
  v <- do_Get "url" ;;
  url <- assert_string v ;;
  v <- do_Get "tls_insecure" ;;
  tls_insecure <- assert_bool v ;;
  v <- do_Get "serialize" ;;
  serialize <- assert_bool v ;;
  api <- do_NewAPI {|
    Url := url;
    TlsNoVerify := tls_insecure;
    Log := l;
    Serialize := serialize;
  |} ;;
  v <- do_Get "username" ;;
  username <- assert_string v ;;
  v <- do_Get "password" ;;
  password <- assert_string v ;;
  r <- do_Login api username password ;;
  let err := snd r in
  let meta := api in
  log_Trace "Started zabbix provider got error: %+v" ;;;
  Ret (meta, err).

(** buildApplicationObject create application struct.  The result is the
    pair of a [*zabbix.Application] and an [error], [None] being [nil] on
    either side. *)
Definition buildApplicationObject
  : Prog API (option Application * option error) :=
  v <- do_Get "hostid" ;;
  hostid <- assert_string v ;;
  v <- do_Get "name" ;;
  name <- assert_string v ;;
  let item := {| ApplicationID := ""; HostID := hostid; Name := name |} in
  log_Trace "build application object: %#v" ;;;
  Ret (Some item, None).

(** applicationRead common application read function *)
Definition applicationRead (m : API) (params : Params)
  : Prog API (option error) :=
  let api := m in
  log_Debug "Lookup of application with params %#v" ;;;
  r <- do_ApplicationsGet api params ;;
  let '(apps, err) := r in
  match err with
  | Some e => Ret (Some e)
  | None =>
      if length apps <? 1 then
        do_SetId "" ;;;
        Ret None
      else if 1 <? length apps then
        Ret (Some (errors_New "multiple applications found"))
      else
        match apps !! 0 with
        | None => Panic "index out of range"
        | Some app =>
            log_Debug "Got application: %+v" ;;;
            do_SetId (ApplicationID app) ;;;
            do_Set "name" (VString (Name app)) ;;;
            do_Set "hostid" (VString (HostID app)) ;;;
            Ret None
        end
  end.

(** resourceApplicationRead read handler for resource *)
Definition resourceApplicationRead (m : API) : Prog API (option error) :=
  id <- do_Id ;;
  log_Debug "Lookup of ??? with id %s" ;;;
  id <- do_Id ;;
  applicationRead m {[ "applicationids" := VString id ]}.

(** resourceApplicationCreate terraform create handler.
    [create_after_build] is the handler from the point where
    buildApplicationObject has returned [item, err]. *)
Definition create_after_build (m : API)
  (r : option Application * option error) : Prog API (option error) :=
  let api := m in
  let '(item, err) := r in
  match err with
  | Some e => Ret (Some e)
  | None =>
      match item with
      | None => Panic "invalid memory address or nil pointer dereference"
      | Some item =>
          let items := [item] in
          r <- do_ApplicationsCreate api items ;;
          let '(items, err) := r in
          match err with
          | Some e => Ret (Some e)
          | None =>
              match items !! 0 with
              | None => Panic "index out of range"
              | Some item0 =>
                  log_Trace "created application: %+v" ;;;
                  do_SetId (ApplicationID item0) ;;;
                  resourceApplicationRead m
              end
          end
      end
  end.

Definition resourceApplicationCreate (m : API) : Prog API (option error) :=
  r <- buildApplicationObject ;;
  create_after_build m r.

(** The loop of dataApplicationRead over [lookups]: [params["filter"]] is
    asserted to be a map and written in place. *)
Fixpoint lookup_loop (lookups : list string) (params : Params)
  : Prog API Params :=
  match lookups with
  | [] => Ret params
  | k :: rest =>
      r <- do_GetOk k ;;
      let '(v, ok) := r in
      if ok : bool then
        match params !! "filter" with
        | Some (VMap filter) =>
            lookup_loop rest (<[ "filter" := VMap (<[ k := v ]> filter) ]> params)
        | _ => Panic "interface conversion: interface {} is not map"
        end
      else lookup_loop rest params
  end.

(** dataApplicationRead read handler for data resource *)
Definition dataApplicationRead (m : API) : Prog API (option error) :=
  let params : Params := {[ "filter" := VMap ∅ ]} in
  let lookups := ["applicationid"; "hostid"; "name"] in
  params <- lookup_loop lookups params ;;
  log_Debug "performing data lookup with params: %#v" ;;;
  applicationRead m params.

(** resourceApplicationUpdate terraform update resource handler *)
Definition resourceApplicationUpdate (m : API) : Prog API (option error) :=
  Ret (Some (errors_New "Unimplemented error")).

(** resourceApplicationDelete terraform delete resource handler *)
Definition resourceApplicationDelete (m : API) : Prog API (option error) :=
  let api := m in
  id <- do_Id ;;
  do_ApplicationsDeleteByIds api [id].

(** [schema.Resource], its four handlers. *)
Record Resource : Type := mkResource {
  Create : option (API -> Prog API (option error));
  Read : option (API -> Prog API (option error));
  Update : option (API -> Prog API (option error));
  Delete : option (API -> Prog API (option error));
}.

(** resourceApplication terraform application resource entrypoint *)
Definition resourceApplication : Resource := {|
  Create := Some resourceApplicationCreate;
  Read := Some resourceApplicationRead;
  Update := Some resourceApplicationUpdate;
  Delete := Some resourceApplicationDelete;
|}.

(** dataApplication terraform application resource entrypoint *)
Definition dataApplication : Resource := {|
  Create := None;
  Read := Some dataApplicationRead;
  Update := None;
  Delete := None;
|}.

End Provider.

(** ** Reading a run *)
Section Observers.
Context {API : Type}.

Definition call_of (e : event API) : Call API :=
  match e with Ev c _ => c end.

(** Calls that go to the client library. *)
Definition is_client_call (c : Call API) : bool :=
  match c with
  | zabbix_NewAPI _ | api_Login _ _ _ | api_ApplicationsCreate _ _
  | api_ApplicationsGet _ _ | api_ApplicationsDeleteByIds _ _ => true
  | _ => false
  end.

(** Calls that write to [d]: the id or a field. *)
Definition is_write (c : Call API) : bool :=
  match c with
  | d_SetId _ | d_Set _ _ => true
  | _ => false
  end.

Definition client_calls (evs : list (event API)) : list (Call API) :=
  List.filter is_client_call (map call_of evs).

Definition writes (evs : list (event API)) : list (Call API) :=
  List.filter is_write (map call_of evs).

(** The answers [ApplicationsGet] gave. *)
Definition get_answer (e : event API)
  : option (list Application * option error) :=
  match e with
  | Ev c r =>
      match c return answer c -> option (list Application * option error) with
      | api_ApplicationsGet _ _ => fun r => Some r
      | _ => fun _ => None
      end r
  end.

Definition get_answers (evs : list (event API))
  : list (list Application * option error) :=
  omap get_answer evs.

(** The answers [ApplicationsCreate] gave. *)
Definition create_answer (e : event API)
  : option (list Application * option error) :=
  match e with
  | Ev c r =>
      match c return answer c -> option (list Application * option error) with
      | api_ApplicationsCreate _ _ => fun r => Some r
      | _ => fun _ => None
      end r
  end.

Definition create_answers (evs : list (event API))
  : list (list Application * option error) :=
  omap create_answer evs.

(** The error, if any, a client call answered with. *)
Definition client_error (e : event API) : option error :=
  match e with
  | Ev c r =>
      match c return answer c -> option error with
      | api_Login _ _ _ => fun r => snd r
      | api_ApplicationsCreate _ _ => fun r => snd r
      | api_ApplicationsGet _ _ => fun r => snd r
      | api_ApplicationsDeleteByIds _ _ => fun r => r
      | _ => fun _ => None
      end r
  end.

Definition client_errors (evs : list (event API)) : list error :=
  omap client_error evs.

End Observers.

Definition prepend {API D S A : Type} (pre : list (event API))
  (r : Result API D S A) : Result API D S A :=
  mkResult (ended r) (final r) (pre ++ events r).

(** ** Two implementations of the interfaces

    The theorems below hold for every implementation.  These two are used to
    run the handlers on concrete inputs. *)

(** A resource data kept as a schema, an id and the fields that are set.
    As in the SDK, a field of the schema that is not set reads as the zero
    value of its type, [GetOk] answers [false] for a zero value, and a key
    outside the schema reads as [nil] and refuses writes. *)
Inductive ValueType : Type := TypeString | TypeBool.

Definition zero_value (t : ValueType) : value :=
  match t with
  | TypeString => VString ""
  | TypeBool => VBool false
  end.

Definition has_type (v : value) (t : ValueType) : bool :=
  match v, t with
  | VString _, TypeString | VBool _, TypeBool => true
  | _, _ => false
  end.

Definition is_zero (v : value) : bool :=
  match v with
  | VNil => true
  | VString s => bool_decide (s = "")
  | VBool b => negb b
  | VMap _ => false
  end.

Record Store : Type := mkStore {
  store_schema : gmap string ValueType;
  store_id : string;
  store_fields : gmap string value;
}.

Definition Store_Get (d : Store) (key : string) : value :=
  match store_schema d !! key with
  | None => VNil
  | Some t => default (zero_value t) (store_fields d !! key)
  end.

Definition Store_GetOk (d : Store) (key : string) : value * bool :=
  (Store_Get d key, negb (is_zero (Store_Get d key))).

Definition Store_Set (key : string) (v : value) (d : Store)
  : option error * Store :=
  match store_schema d !! key with
  | Some t =>
      if has_type v t then
        (None, mkStore (store_schema d) (store_id d) (<[ key := v ]> (store_fields d)))
      else (Some (foreign_error 0 "wrong type for field"), d)
  | None => (Some (foreign_error 0 "invalid key"), d)
  end.

#[global] Instance Store_ResourceData : ResourceData Store := {|
  Get := Store_Get;
  GetOk := Store_GetOk;
  Id := store_id;
  SetId := fun v d => mkStore (store_schema d) v (store_fields d);
  SetField := Store_Set;
|}.

(** The schema of the application resource: [applicationSchemaBase]. *)
Definition application_schema : gmap string ValueType :=
  {[ "name" := TypeString; "hostid" := TypeString ]}.

(** The schema of the provider block. *)
Definition provider_schema : gmap string ValueType :=
  {[ "username" := TypeString; "password" := TypeString; "url" := TypeString;
     "tls_insecure" := TypeBool; "serialize" := TypeBool ]}.

(** A server in memory, standing for the remote API.  Off line, every call
    fails.  Created applications get the next free number as their id; a
    lookup is by id ([applicationids]) or by a [filter] on the three
    fields. *)
Record Server : Type := mkServer {
  online : bool;
  next_id : nat;
  stored : list Application;
}.

Definition unreachable : error := foreign_error (-1) "connection refused".

Fixpoint assign_ids (n : nat) (apps : list Application) : list Application :=
  match apps with
  | [] => []
  | a :: rest =>
      mkApplication (pretty n) (HostID a) (Name a) :: assign_ids (S n) rest
  end.

Definition field_matches (f : gmap string value) (key field : string) : bool :=
  match f !! key with
  | None => true
  | Some (VString s) => bool_decide (s = field)
  | Some _ => false
  end.

Definition selected (params : Params) (a : Application) : bool :=
  match params !! "applicationids", params !! "filter" with
  | Some (VString id), _ => bool_decide (id = ApplicationID a)
  | _, Some (VMap f) =>
      field_matches f "applicationid" (ApplicationID a)
      && field_matches f "hostid" (HostID a)
      && field_matches f "name" (Name a)
  | _, _ => true
  end.

Definition Server_client : Client Config Server := {|
  NewAPI := fun c s => (c, s);
  Login := fun _ _ _ s =>
    if online s then (("session", None), s) else (("", Some unreachable), s);
  ApplicationsCreate := fun _ apps s =>
    if online s then
      let made := assign_ids (next_id s) apps in
      ((made, None), mkServer true (next_id s + length apps) (stored s ++ made))
    else ((apps, Some unreachable), s);
  ApplicationsGet := fun _ params s =>
    if online s then ((List.filter (selected params) (stored s), None), s)
    else (([], Some unreachable), s);
  ApplicationsDeleteByIds := fun _ ids s =>
    if online s then
      (None,
       mkServer true (next_id s)
         (List.filter (fun a => negb (bool_decide (ApplicationID a ∈ ids)))
            (stored s)))
    else (Some unreachable, s);
|}.

(** ** Vocabulary of the statements *)
Section Vocabulary.
Context {API : Type}.

(** The reads of an Application: the common function and its two callers. *)
Inductive application_read : Prog API (option error) -> Prop :=
| read_common (m : API) (params : Params) :
    application_read (applicationRead m params)
| read_resource (m : API) : application_read (resourceApplicationRead m)
| read_data (m : API) : application_read (dataApplicationRead m).

(** The handlers a [schema.Resource] registers. *)
Definition handlers (r : @Resource API)
  : list (API -> Prog API (option error)) :=
  omap id [Create r; Read r; Update r; Delete r].

(** The operations on an Application: every handler of the resource and of
    the data source, run on a client handle, and the common read. *)
Inductive application_operation : Prog API (option error) -> Prop :=
| op_handler (h : API -> Prog API (option error)) (m : API) :
    h ∈ handlers resourceApplication ++ handlers dataApplication ->
    application_operation (h m)
| op_read (m : API) (params : Params) :
    application_operation (applicationRead m params).

(** The keys dataApplicationRead looks up. *)
Definition lookups : list string := ["applicationid"; "hostid"; "name"].

End Vocabulary.

(** A run is atomic on failure when, if it returned an error, it wrote
    nothing to the resource data [d] it started from. *)
Definition atomic_on_failure {API D S : Type} (d : D)
  (r : Result API D S (option error)) : Prop :=
  forall e : error,
    ended r = Returned (Some e) -> writes (events r) = [] /\ rd (final r) = d.

(** A run writes only on the exactly-one-match path when any write in it
    comes with an ApplicationsGet that answered exactly one application. *)
Definition writes_only_on_single_match {API D S : Type}
  (r : Result API D S (option error)) : Prop :=
  writes (events r) <> [] ->
  exists app : Application, get_answers (events r) = [([app], None)].

(** A run passes the client's errors on when any error a client call
    answered in it is what the run returned. *)
Definition passes_client_errors {API D S : Type}
  (r : Result API D S (option error)) : Prop :=
  forall e : error,
    e ∈ client_errors (events r) -> ended r = Returned (Some e).

(** Where the error a run returned comes from: a client call of the run, or
    the ambiguity of a lookup that answered several applications, or
    [or_else]. *)
Definition error_accounted {API D S : Type}
  (r : Result API D S (option error)) (or_else : error -> Prop) : Prop :=
  forall e : error,
    ended r = Returned (Some e) ->
    e ∈ client_errors (events r) \/
    (e = errors_New "multiple applications found" /\
     exists apps : list Application,
       (apps, None) ∈ get_answers (events r) /\ 1 < length apps) \/
    or_else e.

(** The filter the loop of dataApplicationRead leaves, starting from [f]. *)
Definition filter_of {D : Type} {RD : ResourceData D} (d : D)
  (ks : list string) (f : gmap string value) : gmap string value :=
  foldl (fun f k => if snd (GetOk d k) then <[ k := fst (GetOk d k) ]> f else f)
    f ks.

(** The calls of the lookup loop: one [GetOk] per key, in order. *)
Definition lookup_events {API D : Type} {RD : ResourceData D} (d : D)
  (ks : list string) : list (event API) :=
  map (fun k => Ev (d_GetOk k) (GetOk d k)) ks.

(** A run is atomic on failure and writes only where exactly one application
    matched. *)
Definition atomic_and_writes_on_single_match {API D S : Type}
  (d : D) (r : Result API D S (option error)) : Prop :=
  atomic_on_failure d r /\ writes_only_on_single_match r.

(** Inputs to run the handlers on: a handle, resource data of an application
    (new, tracked under id 7, looked up by name) and of the provider block,
    and three servers: empty, holding two applications of one name on two
    hosts, and off line. *)
Definition api0 : Config :=
  mkConfig "http://zabbix.example/api_jsonrpc.php" false
    (logger_New stderr "[DEBUG] " logger_LstdFlags) true.

Definition d_cpu : Store :=
  mkStore application_schema ""
    {[ "name" := VString "CPU"; "hostid" := VString "10084" ]}.

Definition d_tracked : Store :=
  mkStore application_schema "7"
    {[ "name" := VString "CPU"; "hostid" := VString "10084" ]}.

Definition d_by_name : Store :=
  mkStore application_schema "" {[ "name" := VString "CPU" ]}.

Definition d_provider : Store :=
  mkStore provider_schema ""
    {[ "username" := VString "Admin"; "password" := VString "zabbix";
       "url" := VString "http://zabbix.example/api_jsonrpc.php";
       "serialize" := VBool true ]}.

Definition server_empty : Server := mkServer true 1 [].

Definition server_two : Server :=
  mkServer true 3
    [mkApplication "1" "10084" "CPU"; mkApplication "2" "10085" "CPU"].

Definition server_down : Server := mkServer false 1 [].

Definition w_new : World Store Server := mkWorld d_cpu server_empty.

Definition w_gone : World Store Server := mkWorld d_tracked server_empty.

Definition w_by_name : World Store Server := mkWorld d_by_name server_two.

Definition w_down : World Store Server := mkWorld d_tracked server_down.

Definition w_provider : World Store Server := mkWorld d_provider server_empty.

(** More inputs: a resource data tracking application 1, one with no field
    set, a server whose counter lags behind the ids it holds, and a client
    that answers a create without storing anything. *)
Definition d_one : Store := mkStore application_schema "1" ∅.

Definition d_blank : Store := mkStore application_schema "" ∅.

Definition server_stale : Server :=
  mkServer true 1 [mkApplication "1" "10085" "Disk"].

Definition Lossy_client : Client Config Server := {|
  NewAPI := NewAPI Server_client;
  Login := Login Server_client;
  ApplicationsCreate := fun _ apps s =>
    ((assign_ids (next_id s) apps, None), s);
  ApplicationsGet := ApplicationsGet Server_client;
  ApplicationsDeleteByIds := ApplicationsDeleteByIds Server_client;
|}.

Definition w_one : World Store Server := mkWorld d_one server_two.

Definition w_new_down : World Store Server := mkWorld d_cpu server_down.

Definition w_new_stale : World Store Server := mkWorld d_cpu server_stale.

Definition w_blank : World Store Server := mkWorld d_blank server_two.

(** ** Schemas *)

(** The validators and default functions of the SDK the schemas name; they
    are kept as names with their arguments. *)
Inductive validator : Type :=
| validation_StringIsNotWhiteSpace
| validation_IsURLWithHTTPorHTTPS
| validation_StringMatch (pattern message : string).

Inductive default_func : Type :=
| schema_MultiEnvDefaultFunc (names : list string) (dv : value).

(** [schema.Schema], the fields the package sets.  A field that a literal
    leaves out has Go's zero value: [false], [nil], the empty string. *)
Record Schema : Type := mkSchema {
  schema_Type : ValueType;
  Required : bool;
  Optional : bool;
  ForceNew : bool;
  Default : value;
  Description : string;
  ValidateFunc : option validator;
  DefaultFunc : option default_func;
}.

(** The [Schema] of Provider: the settings of the provider block. *)
Definition Provider_Schema : gmap string Schema :=
  {[ "username" :=
       mkSchema TypeString true false false VNil "Zabbix API username"
         (Some validation_StringIsNotWhiteSpace)
         (Some (schema_MultiEnvDefaultFunc ["ZABBIX_USER"; "ZABBIX_USERNAME"] VNil));
     "password" :=
       mkSchema TypeString true false false VNil "Zabbix API password"
         (Some validation_StringIsNotWhiteSpace)
         (Some (schema_MultiEnvDefaultFunc ["ZABBIX_PASS"; "ZABBIX_PASSWORD"] VNil));
     "url" :=
       mkSchema TypeString true false false VNil "Zabbix API url"
         (Some validation_IsURLWithHTTPorHTTPS)
         (Some (schema_MultiEnvDefaultFunc ["ZABBIX_URL"; "ZABBIX_SERVER_URL"] VNil));
     "tls_insecure" :=
       mkSchema TypeBool false true false (VBool false)
         "Disable TLS certificate checking (for testing use only)" None None;
     "serialize" :=
       mkSchema TypeBool false true false (VBool false)
         "Serialize API requests, if required due to API race conditions"
         None None ]}.

(** applicationSchemaBase base application schema *)
Definition applicationSchemaBase : gmap string Schema :=
  {[ "name" :=
       mkSchema TypeString true false false VNil "Name of the application"
         None None;
     "hostid" :=
       mkSchema TypeString true false true VNil "Host ID"
         (Some (validation_StringMatch "^[0-9]+$" "must be numeric")) None ]}.

(** [schema.Required = true] on a copy. *)
Definition set_Required (s : Schema) : Schema :=
  mkSchema (schema_Type s) true (Optional s) (ForceNew s) (Default s)
    (Description s) (ValidateFunc s) (DefaultFunc s).

(** applicationResourceSchema adjust a base schema for resource usage: the
    loop over the entries of [m], each copied, marked and stored in [o]. *)
Definition applicationResourceSchema (m : gmap string Schema)
  : gmap string Schema :=
  map_fold
    (fun k v o =>
       let schema := v in
       let schema :=
         if bool_decide (k = "name") || bool_decide (k = "hostid")
         then set_Required schema
         else schema in
       <[ k := schema ]> o)
    ∅ m.

(** applicationDataSchema adjust a base schema for data usage *)
Definition applicationDataSchema (m : gmap string Schema)
  : gmap string Schema :=
  map_fold (fun k v o => let schema := v in <[ k := schema ]> o) ∅ m.


Definition dataApplication_Schema : gmap string Schema :=
  applicationDataSchema applicationSchemaBase.

(** What the switch in the loop of applicationResourceSchema does to the
    entry of key [k]. *)
Definition mark_required (k : string) (s : Schema) : Schema :=
  if bool_decide (k = "name") || bool_decide (k = "hostid")
  then set_Required s else s.

(** Calls that read a field of [d]. *)
Definition is_field_read {API : Type} (c : Call API) : bool :=
  match c with
  | d_Get _ | d_GetOk _ => true
  | _ => false
  end.

(** What the SDK promises of [d.Get] on a resource data made for a schema:
    each declared key reads as a value of its declared type. *)
Definition typed_by {D : Type} {RD : ResourceData D}
  (sch : gmap string Schema) (d : D) : Prop :=
  map_Forall (fun k s => has_type (Get d k) (schema_Type s) = true) sch.

(** The writes a handler of the application resource may make: the id, and
    the fields name and hostid. *)
Definition is_application_write {API : Type} (c : Call API) : bool :=
  match c with
  | d_SetId _ => true
  | d_Set key _ => bool_decide (key = "name") || bool_decide (key = "hostid")
  | _ => false
  end.

(** The only panic a handler can end in: a failed type assertion on what
    [d.Get] gave. *)
Definition is_assertion_panic {A : Type} (o : outcome A) : Prop :=
  match o with
  | Returned _ => True
  | Panicked msg =>
      msg = "interface conversion: interface {} is not string" \/
      msg = "interface conversion: interface {} is not bool"
  end.

Definition returned {A : Type} (o : outcome A) : Prop :=
  match o with
  | Returned _ => True
  | Panicked _ => False
  end.

(** ** General facts about runs *)
Section RunFacts.
Context {D : Type} {RD : ResourceData D} {API S : Type} (client : Client API S).

Lemma prepend_prepend {A} (p q : list (event API)) (r : Result API D S A) :
  prepend p (prepend q r) = prepend (p ++ q) r.
Proof. unfold prepend; cbn. by rewrite app_assoc. Qed.

(** Running [p] and then [f] is running [f] where [p] left off. *)
Lemma run_bind {A B} (p : Prog API A) (f : A -> Prog API B) (w : World D S) :
  run client (bind p f) w =
  match ended (run client p w) with
  | Returned a =>
      prepend (events (run client p w)) (run client (f a) (final (run client p w)))
  | Panicked msg =>
      mkResult (Panicked msg) (final (run client p w)) (events (run client p w))
  end.
Proof.
  revert w; induction p as [a | msg | c k IH]; intros w; cbn.
  - by destruct (run client (f a) w).
  - reflexivity.
  - rewrite IH. by destruct (ended (run client (k _) _)).
Qed.

Lemma client_calls_app (l1 l2 : list (event API)) :
  client_calls (l1 ++ l2) = client_calls l1 ++ client_calls l2.
Proof. unfold client_calls. by rewrite map_app, List.filter_app. Qed.

Lemma writes_app (l1 l2 : list (event API)) :
  writes (l1 ++ l2) = writes l1 ++ writes l2.
Proof. unfold writes. by rewrite map_app, List.filter_app. Qed.

Lemma get_answers_app (l1 l2 : list (event API)) :
  get_answers (l1 ++ l2) = get_answers l1 ++ get_answers l2.
Proof. apply omap_app. Qed.

Lemma client_errors_app (l1 l2 : list (event API)) :
  client_errors (l1 ++ l2) = client_errors l1 ++ client_errors l2.
Proof. apply omap_app. Qed.

Lemma client_errors_cons (e : event API) (l : list (event API)) :
  client_errors (e :: l) =
  from_option (fun x => x :: client_errors l) (client_errors l) (client_error e).
Proof. unfold client_errors; cbn. by destruct (client_error e). Qed.

Lemma get_answers_cons (e : event API) (l : list (event API)) :
  get_answers (e :: l) =
  from_option (fun x => x :: get_answers l) (get_answers l) (get_answer e).
Proof. unfold get_answers; cbn. by destruct (get_answer e). Qed.

End RunFacts.

(** ** The runs of the handlers *)
Section Handlers.
Context {D : Type} {RD : ResourceData D} {API S : Type} (client : Client API S).

Local Abbreviation run := (run client).

(** applicationRead, case by case on what the client answers. *)
Lemma applicationRead_run (m : API) (params : Params) (w : World D S) :
  run (applicationRead m params) w =
  let r := ApplicationsGet client m params (remote w) in
  prepend
    [Ev (log_printf level_Debug "Lookup of application with params %#v") tt;
     Ev (api_ApplicationsGet m params) (fst r)]
    match snd (fst r), fst (fst r) with
    | Some e, _ => mkResult (Returned (Some e)) (mkWorld (rd w) (snd r)) []
    | None, [] =>
        mkResult (Returned None) (mkWorld (SetId "" (rd w)) (snd r))
          [Ev (d_SetId "") tt]
    | None, [app] =>
        let d1 := SetId (ApplicationID app) (rd w) in
        let r2 := SetField "name" (VString (Name app)) d1 in
        let r3 := SetField "hostid" (VString (HostID app)) (snd r2) in
        mkResult (Returned None) (mkWorld (snd r3) (snd r))
          [Ev (log_printf level_Debug "Got application: %+v") tt;
           Ev (d_SetId (ApplicationID app)) tt;
           Ev (d_Set "name" (VString (Name app))) (fst r2);
           Ev (d_Set "hostid" (VString (HostID app))) (fst r3)]
    | None, _ :: _ :: _ =>
        mkResult (Returned (Some (errors_New "multiple applications found")))
          (mkWorld (rd w) (snd r)) []
    end.
Proof.
  cbn. destruct (ApplicationsGet client m params (remote w)) as [[apps err] s'].
  cbn. destruct err as [e|]; [reflexivity|].
  destruct apps as [|app [|app' apps]]; reflexivity.
Qed.

Lemma resourceApplicationRead_run (m : API) (w : World D S) :
  run (resourceApplicationRead m) w =
  prepend
    [Ev d_Id (Id (rd w));
     Ev (log_printf level_Debug "Lookup of ??? with id %s") tt;
     Ev d_Id (Id (rd w))]
    (run (applicationRead m {[ "applicationids" := VString (Id (rd w)) ]}) w).
Proof. reflexivity. Qed.

Lemma lookup_loop_run (ks : list string) (params : Params)
    (f : gmap string value) (w : World D S) :
  params !! "filter" = Some (VMap f) ->
  run (lookup_loop ks params) w =
  mkResult (Returned (<[ "filter" := VMap (filter_of (rd w) ks f) ]> params)) w
    (lookup_events (rd w) ks).
Proof.
  revert params f. induction ks as [|k ks IH]; intros params f Hf.
  - cbn. by rewrite insert_id.
  - cbn. destruct (GetOk (rd w) k) as [v ok] eqn:Hk. cbn.
    destruct ok.
    + rewrite Hf. cbn.
      rewrite (IH _ (<[ k := v ]> f)) by apply lookup_insert_eq.
      unfold after; cbn. by rewrite insert_insert_eq.
    + by rewrite (IH _ f Hf).
Qed.

Lemma dataApplicationRead_run (m : API) (w : World D S) :
  run (dataApplicationRead m) w =
  prepend
    (lookup_events (rd w) lookups ++
     [Ev (log_printf level_Debug "performing data lookup with params: %#v") tt])
    (run (applicationRead m {[ "filter" := VMap (filter_of (rd w) lookups ∅) ]}) w).
Proof.
  unfold dataApplicationRead. rewrite run_bind.
  rewrite (lookup_loop_run _ _ ∅) by apply lookup_singleton_eq.
  cbn [ended final events]. rewrite insert_singleton_eq.
  rewrite run_bind. cbn -[applicationRead lookup_events filter_of].
  rewrite prepend_prepend. reflexivity.
Qed.



Lemma write_back_singleton {A} (a : A) (new : list A) :
  write_back [a] new = [default a (head new)].
Proof. by destruct new. Qed.

(** buildApplicationObject, case by case on what [d.Get] gives. *)
Lemma buildApplicationObject_run (w : World D S) :
  run buildApplicationObject w =
  prepend [Ev (d_Get "hostid") (Get (rd w) "hostid")]
    match Get (rd w) "hostid" with
    | VString hostid =>
        prepend [Ev (d_Get "name") (Get (rd w) "name")]
          match Get (rd w) "name" with
          | VString name =>
              mkResult (Returned (Some (mkApplication "" hostid name), None)) w
                [Ev (log_printf level_Trace "build application object: %#v") tt]
          | _ =>
              mkResult
                (Panicked "interface conversion: interface {} is not string")
                w []
          end
    | _ =>
        mkResult (Panicked "interface conversion: interface {} is not string")
          w []
    end.
Proof.
  cbn. destruct (Get (rd w) "hostid"); try reflexivity.
  cbn. destruct (Get (rd w) "name"); reflexivity.
Qed.

(** The rest of resourceApplicationCreate on a built object. *)
Lemma create_after_build_run (m : API) (item : Application) (w : World D S) :
  run (create_after_build m (Some item, None)) w =
  let r := ApplicationsCreate client m [item] (remote w) in
  let item0 := default item (head (fst (fst r))) in
  prepend [Ev (api_ApplicationsCreate m [item]) ([item0], snd (fst r))]
    match snd (fst r) with
    | Some e => mkResult (Returned (Some e)) (mkWorld (rd w) (snd r)) []
    | None =>
        prepend
          [Ev (log_printf level_Trace "created application: %+v") tt;
           Ev (d_SetId (ApplicationID item0)) tt]
          (run (resourceApplicationRead m)
             (mkWorld (SetId (ApplicationID item0) (rd w)) (snd r)))
    end.
Proof.
  cbn -[resourceApplicationRead].
  destruct (ApplicationsCreate client m [item] (remote w)) as [[new err] s'].
  cbn -[resourceApplicationRead].
  destruct err as [e|]; [by destruct new|].
  destruct new; reflexivity.
Qed.

(** Every read is [applicationRead] after calls that neither write nor reach
    the client. *)
Lemma application_read_run (p : Prog API (option error)) (w : World D S) :
  application_read p ->
  exists (pre : list (event API)) (m : API) (params : Params),
    run p w = prepend pre (run (applicationRead m params) w) /\
    writes pre = [] /\ client_calls pre = [] /\
    get_answers pre = [] /\ client_errors pre = [].
Proof.
  intros [m params | m | m].
  - exists [], m, params. split; [|done]. by destruct (run _ w).
  - eexists _, m, _. split; [apply resourceApplicationRead_run|done].
  - eexists _, m, _. split; [apply dataApplicationRead_run|done].
Qed.

End Handlers.

(** ** The claims *)

(** Splits a read into the cases of [applicationRead_run]: the client's
    error, no match, one match, several. *)
Ltac read_cases client p w Hp :=
  let pre := fresh "pre" in
  let m := fresh "m" in
  let params := fresh "params" in
  let Hw := fresh "Hw" in
  let Hc := fresh "Hc" in
  let Hg := fresh "Hg" in
  let He := fresh "He" in
  destruct (application_read_run client p w Hp)
    as (pre & m & params & -> & Hw & Hc & Hg & He);
  rewrite applicationRead_run; cbn zeta;
  destruct (ApplicationsGet client m params (remote w)) as [[apps err] s'];
  destruct err as [e|]; [|destruct apps as [|a0 [|a1 apps]]];
  cbn [fst snd prepend ended final events app rd remote] in *;
  rewrite ?writes_app, ?get_answers_app, ?client_calls_app, ?client_errors_app,
    ?Hw, ?Hg, ?Hc, ?He in *;
  cbn [app] in *.

Section Claims.
Context {D : Type} {RD : ResourceData D} {API S : Type} (client : Client API S).

Local Abbreviation run := (run client).

(** C1. On every resource data, handle and client, resourceApplicationUpdate
    returns the error made from the text "Unimplemented error", having made no
    call at all (none to the client, none to [d]) and left the world as it
    was. *)
Theorem resourceApplicationUpdate_unimplemented (m : API) (w : World D S) :
  run (resourceApplicationUpdate m) w =
  mkResult (Returned (Some (errors_New "Unimplemented error"))) w [].
Proof. reflexivity. Qed.

(** C2. In every read of an Application (the common read, the resource read,
    the data-source read): if ApplicationsGet answered with no error and no
    application, the read returns [nil], its only write is [SetId("")], and
    the resource data it leaves is the initial one with the id cleared. *)
Theorem read_zero_matches_clears_id (p : Prog API (option error))
    (w : World D S) :
  application_read p ->
  ([], None) ∈ get_answers (events (run p w)) ->
  ended (run p w) = Returned None /\
  writes (events (run p w)) = [d_SetId ""] /\
  rd (final (run p w)) = SetId "" (rd w).
Proof.
  intros Hp Hin. revert Hin. read_cases client p w Hp;
    intros Hin%list_elem_of_singleton; try discriminate Hin.
  done.
Qed.

(** C3. In every read of an Application: if ApplicationsGet answered with no
    error and more than one application, the read returns the error made
    from "multiple applications found", writes nothing and leaves the
    resource data as it was. *)
Theorem read_multiple_matches_fails (p : Prog API (option error))
    (w : World D S) (apps : list Application) :
  application_read p ->
  (apps, None) ∈ get_answers (events (run p w)) ->
  1 < length apps ->
  ended (run p w) = Returned (Some (errors_New "multiple applications found")) /\
  writes (events (run p w)) = [] /\
  rd (final (run p w)) = rd w.
Proof.
  intros Hp Hin Hlen. revert Hin.
  destruct (application_read_run client p w Hp)
    as (pre & m & params & -> & Hw & Hc & Hg & He).
  rewrite applicationRead_run; cbn zeta.
  destruct (ApplicationsGet client m params (remote w)) as [[apps' err] s'].
  destruct err as [e|]; [|destruct apps' as [|a0 [|a1 apps']]];
    cbn [fst snd prepend ended final events app rd remote];
    rewrite ?writes_app, ?get_answers_app, ?Hw, ?Hg; cbn [app];
    intros Hin%list_elem_of_singleton; inversion Hin; subst;
    cbn in Hlen; try lia.
  done.
Qed.

(** C10, as amended.  A read that returns an error has written nothing and
    leaves the resource data as it was; a read that writes returns [nil] and
    is on one of two paths: no match, where the one write is [SetId("")], or
    exactly one match, where the writes are SetId and Set of name and
    hostid from that application. *)
Theorem read_writes_only_on_success (p : Prog API (option error))
    (w : World D S) :
  application_read p ->
  atomic_on_failure (rd w) (run p w) /\
  (writes (events (run p w)) <> [] ->
   ended (run p w) = Returned None /\
   ((get_answers (events (run p w)) = [([], None)] /\
     writes (events (run p w)) = [d_SetId ""]) \/
    (exists app : Application,
       get_answers (events (run p w)) = [([app], None)] /\
       writes (events (run p w)) =
         [d_SetId (ApplicationID app); d_Set "name" (VString (Name app));
          d_Set "hostid" (VString (HostID app))]))).
Proof.
  intros Hp. unfold atomic_on_failure. read_cases client p w Hp.
  - split; [done|]. intros Hne. by destruct Hne.
  - split; [intros e [=]|]. intros _. split; [done|]. by left.
  - split; [intros e [=]|]. intros _. split; [done|]. right. by exists a0.
  - split; [done|]. intros Hne. by destruct Hne.
Qed.

(** C8. resourceApplicationDelete makes one call to the client,
    ApplicationsDeleteByIds on the one-element list of the tracked id,
    returns what that call answered, writes nothing and leaves the resource
    data as it was. *)
Theorem resourceApplicationDelete_one_call (m : API) (w : World D S) :
  let r := ApplicationsDeleteByIds client m [Id (rd w)] (remote w) in
  client_calls (events (run (resourceApplicationDelete m) w)) =
    [api_ApplicationsDeleteByIds m [Id (rd w)]] /\
  ended (run (resourceApplicationDelete m) w) = Returned (fst r) /\
  writes (events (run (resourceApplicationDelete m) w)) = [] /\
  final (run (resourceApplicationDelete m) w) = mkWorld (rd w) (snd r).
Proof. done. Qed.

(** C9. Whenever buildApplicationObject returns, it returns a non-nil
    Application and a nil error; it does return, with the object built from
    hostid and name, on every resource data whose two fields read as strings
    (the only way it does not return is the panic of a type assertion).  So
    the test [err != nil] after it in resourceApplicationCreate never holds:
    the handler runs as it would with [nil] in place of [err]. *)
Theorem buildApplicationObject_never_fails (m : API) (w : World D S) :
  (forall (item : option Application) (err : option error),
     ended (run buildApplicationObject w) = Returned (item, err) ->
     is_Some item /\ err = None) /\
  (forall hostid name : string,
     Get (rd w) "hostid" = VString hostid ->
     Get (rd w) "name" = VString name ->
     ended (run buildApplicationObject w) =
       Returned (Some (mkApplication "" hostid name), None)) /\
  run (resourceApplicationCreate m) w =
  run (bind buildApplicationObject
         (fun r => create_after_build m (fst r, None))) w.
Proof.
  split; [|split].
  - intros item err. rewrite buildApplicationObject_run.
    destruct (Get (rd w) "hostid"); try discriminate.
    destruct (Get (rd w) "name"); try discriminate.
    intros [= <- <-]. by eauto.
  - intros hostid name Hh Hn. rewrite buildApplicationObject_run.
    by rewrite Hh, Hn.
  - unfold resourceApplicationCreate. rewrite !run_bind.
    rewrite buildApplicationObject_run.
    destruct (Get (rd w) "hostid"); try reflexivity.
    destruct (Get (rd w) "name"); reflexivity.
Qed.


(** C6. On a provider block whose five settings read with their schema
    types, providerConfigure builds the client from a Config whose Url,
    TlsNoVerify and Serialize are the values of "url", "tls_insecure" and
    "serialize" as read, logs in with "username" and "password" on the handle
    it got, and returns that handle with the error of the login. *)
Theorem providerConfigure_forwards_settings (w : World D S)
    (url user password : string) (tls_insecure serialize : bool) :
  Get (rd w) "url" = VString url ->
  Get (rd w) "tls_insecure" = VBool tls_insecure ->
  Get (rd w) "serialize" = VBool serialize ->
  Get (rd w) "username" = VString user ->
  Get (rd w) "password" = VString password ->
  let cfg :=
    mkConfig url tls_insecure (logger_New stderr "[DEBUG] " logger_LstdFlags)
      serialize in
  let made := NewAPI client cfg (remote w) in
  let logged := Login client (fst made) user password (snd made) in
  client_calls (events (run providerConfigure w)) =
    [zabbix_NewAPI cfg; api_Login (fst made) user password] /\
  ended (run providerConfigure w) = Returned (fst made, snd (fst logged)) /\
  final (run providerConfigure w) = mkWorld (rd w) (snd logged).
Proof.
  intros Hurl Htls Hser Huser Hpass. cbn.
  rewrite Hurl; cbn. rewrite Htls; cbn. rewrite Hser; cbn.
  rewrite Huser; cbn. rewrite Hpass; cbn. done.
Qed.

(** The errors of a read: the client's, or the ambiguity. *)
Lemma read_errors (p : Prog API (option error)) (w : World D S) :
  application_read p ->
  passes_client_errors (run p w) /\
  error_accounted (run p w) (fun _ => False).
Proof.
  intros Hp. unfold passes_client_errors, error_accounted.
  read_cases client p w Hp.
  - split; [by intros e' ->%list_elem_of_singleton|].
    intros e' [= <-]. left. by apply list_elem_of_singleton.
  - split; [by intros e' ?%elem_of_nil | by intros e' [=]].
  - split; [by intros e' ?%elem_of_nil | by intros e' [=]].
  - split; [by intros e' ?%elem_of_nil |].
    intros e' [= <-]. right; left. split; [done|].
    exists (a0 :: a1 :: apps). split; [by apply list_elem_of_singleton|cbn; lia].
Qed.

(** The errors of a create: as for the read it ends with, and the client's
    refusal to create. *)
Lemma create_errors (m : API) (w : World D S) :
  passes_client_errors (run (resourceApplicationCreate m) w) /\
  error_accounted (run (resourceApplicationCreate m) w) (fun _ => False).
Proof.
  unfold passes_client_errors, error_accounted, resourceApplicationCreate.
  rewrite run_bind, buildApplicationObject_run.
  destruct (Get (rd w) "hostid") as [| hostid | |];
    try (split; [by intros e ?%elem_of_nil | by intros e [=]]).
  destruct (Get (rd w) "name") as [| name | |];
    try (split; [by intros e ?%elem_of_nil | by intros e [=]]).
  cbn [prepend ended final events app].
  rewrite create_after_build_run. cbn zeta.
  destruct (ApplicationsCreate client m _ (remote w)) as [[new err] s1].
  cbn [fst snd]. destruct err as [e0|].
  - split; [by intros e ->%list_elem_of_singleton|].
    intros e [= <-]. left. by apply list_elem_of_singleton.
  - set (w1 := mkWorld _ s1).
    destruct (read_errors (resourceApplicationRead m) w1 (read_resource m))
      as [Hpass Hacc].
    unfold passes_client_errors, error_accounted in Hpass, Hacc.
    cbn [prepend ended final events app].
    rewrite !client_errors_cons, !get_answers_cons.
    cbn [client_error get_answer snd from_option].
    done.
Qed.

(** C5. In every operation on an Application, an error that a call to the
    client answered is the error the operation returns, unchanged; and an
    error the operation returns is one a client call of that run answered,
    or the one made from "multiple applications found" when a lookup answered
    several applications, or the one made from "Unimplemented error", which
    only the update returns. *)
Theorem application_operation_errors (p : Prog API (option error))
    (w : World D S) :
  application_operation p ->
  passes_client_errors (run p w) /\
  error_accounted (run p w)
    (fun e => e = errors_New "Unimplemented error" /\
              exists m : API, p = resourceApplicationUpdate m).
Proof.
  assert (Hweak : forall (r : Result API D S (option error)) (P : error -> Prop),
    passes_client_errors r /\ error_accounted r (fun _ => False) ->
    passes_client_errors r /\ error_accounted r P).
  { intros r P [Hpass Hacc]. split; [done|].
    intros e He. destruct (Hacc e He) as [?|[?|[]]]; auto. }
  intros [h m Hin | m params].
  - cbn in Hin.
    repeat (apply elem_of_cons in Hin as [-> | Hin]).
    + apply Hweak, create_errors.
    + apply Hweak, read_errors, read_resource.
    + split; [by intros e ?%elem_of_nil|].
      intros e [= <-]. right; right. split; [done|]. by exists m.
    + unfold passes_client_errors, error_accounted. cbn.
      destruct (ApplicationsDeleteByIds client m _ (remote w)) as [[e0|] s1];
        cbn.
      * split; [by intros e ->%list_elem_of_singleton|].
        intros e [= <-]. left. by apply list_elem_of_singleton.
      * split; [by intros e ?%elem_of_nil | by intros e [=]].
    + apply Hweak, read_errors, read_data.
    + by apply elem_of_nil in Hin.
  - apply Hweak, read_errors, read_common.
Qed.


End Claims.

(** ** The handlers on the store and the server in memory *)

(** On a store with the application schema, the writes of a read that
    found one application leave its id, name and hostid readable. *)
Lemma Store_after_read (d : Store) (stale id name hostid : string) :
  store_schema d = application_schema ->
  let d' :=
    snd (SetField "hostid" (VString hostid)
           (snd (SetField "name" (VString name) (SetId id (SetId stale d))))) in
  Id d' = id /\ Get d' "name" = VString name /\
  Get d' "hostid" = VString hostid.
Proof.
  destruct d as [schema i fields]; cbn. intros ->.
  unfold Store_Set, Store_Get; cbn.
  assert (Hn : application_schema !! "name" = Some TypeString) by reflexivity.
  assert (Hh : application_schema !! "hostid" = Some TypeString) by reflexivity.
  rewrite Hn; cbn. rewrite Hh; cbn. rewrite Hn, Hh.
  rewrite lookup_insert_ne by done. by rewrite !lookup_insert_eq.
Qed.

Lemma read_zero_matches_clears_id_witness :
  application_read (resourceApplicationRead api0) /\
  ([], None)
    ∈ get_answers (events (run Server_client (resourceApplicationRead api0) w_gone)) /\
  ended (run Server_client (resourceApplicationRead api0) w_gone) = Returned None /\
  writes (events (run Server_client (resourceApplicationRead api0) w_gone)) =
    [d_SetId ""] /\
  rd (final (run Server_client (resourceApplicationRead api0) w_gone)) =
    SetId "" d_tracked.
Proof.
  assert (Hp : application_read (resourceApplicationRead api0)) by constructor.
  assert (Hin : ([], None)
    ∈ get_answers (events (run Server_client (resourceApplicationRead api0) w_gone))).
  { vm_compute. left. }
  split; [exact Hp|]. split; [exact Hin|].
  exact (read_zero_matches_clears_id Server_client _ w_gone Hp Hin).
Defined.

Lemma read_multiple_matches_fails_witness :
  application_read (dataApplicationRead api0) /\
  (stored server_two, None)
    ∈ get_answers (events (run Server_client (dataApplicationRead api0) w_by_name)) /\
  1 < length (stored server_two) /\
  ended (run Server_client (dataApplicationRead api0) w_by_name) =
    Returned (Some (errors_New "multiple applications found")) /\
  writes (events (run Server_client (dataApplicationRead api0) w_by_name)) = [] /\
  rd (final (run Server_client (dataApplicationRead api0) w_by_name)) = d_by_name.
Proof.
  assert (Hp : application_read (dataApplicationRead api0)) by constructor.
  assert (Hin : (stored server_two, None)
    ∈ get_answers (events (run Server_client (dataApplicationRead api0) w_by_name))).
  { vm_compute. left. }
  assert (Hlen : 1 < length (stored server_two)) by (cbn; lia).
  split; [exact Hp|]. split; [exact Hin|]. split; [exact Hlen|].
  exact (read_multiple_matches_fails Server_client _ w_by_name _ Hp Hin Hlen).
Defined.


Lemma application_operation_errors_witness :
  application_operation (resourceApplicationDelete api0) /\
  ended (run Server_client (resourceApplicationDelete api0) w_down) =
    Returned (Some unreachable) /\
  passes_client_errors (run Server_client (resourceApplicationDelete api0) w_down) /\
  error_accounted (run Server_client (resourceApplicationDelete api0) w_down)
    (fun e => e = errors_New "Unimplemented error" /\
              exists m : Config,
                resourceApplicationDelete api0 = resourceApplicationUpdate m).
Proof.
  assert (Hop : application_operation (resourceApplicationDelete api0)).
  { apply (op_handler resourceApplicationDelete api0). cbn.
    do 3 apply list_elem_of_further. apply list_elem_of_here. }
  split; [exact Hop|]. split; [reflexivity|].
  exact (application_operation_errors Server_client _ w_down Hop).
Defined.

Lemma providerConfigure_forwards_settings_witness :
  (Get d_provider "url" = VString "http://zabbix.example/api_jsonrpc.php" /\
   Get d_provider "tls_insecure" = VBool false /\
   Get d_provider "serialize" = VBool true /\
   Get d_provider "username" = VString "Admin" /\
   Get d_provider "password" = VString "zabbix") /\
  client_calls (events (run Server_client providerConfigure w_provider)) =
    [zabbix_NewAPI api0; api_Login api0 "Admin" "zabbix"] /\
  ended (run Server_client providerConfigure w_provider) =
    Returned (api0, None) /\
  final (run Server_client providerConfigure w_provider) = w_provider.
Proof.
  split; [by repeat split|].
  exact (providerConfigure_forwards_settings Server_client w_provider
           "http://zabbix.example/api_jsonrpc.php" "Admin" "zabbix" false true
           eq_refl eq_refl eq_refl eq_refl eq_refl).
Defined.

Lemma buildApplicationObject_never_fails_witness :
  Get d_cpu "hostid" = VString "10084" /\
  Get d_cpu "name" = VString "CPU" /\
  ended (run Server_client buildApplicationObject w_new) =
    Returned (Some (mkApplication "" "10084" "CPU"), None).
Proof.
  split; [reflexivity|]. split; [reflexivity|].
  exact (proj1 (proj2 (buildApplicationObject_never_fails Server_client api0 w_new))
           "10084" "CPU" eq_refl eq_refl).
Defined.

Lemma read_writes_only_on_success_witness :
  application_read (resourceApplicationRead api0) /\
  atomic_on_failure d_tracked
    (run Server_client (resourceApplicationRead api0) w_down) /\
  (writes (events (run Server_client (resourceApplicationRead api0) w_down)) <> [] ->
   ended (run Server_client (resourceApplicationRead api0) w_down) = Returned None /\
   ((get_answers (events (run Server_client (resourceApplicationRead api0) w_down)) =
       [([], None)] /\
     writes (events (run Server_client (resourceApplicationRead api0) w_down)) =
       [d_SetId ""]) \/
    (exists app : Application,
       get_answers (events (run Server_client (resourceApplicationRead api0) w_down)) =
         [([app], None)] /\
       writes (events (run Server_client (resourceApplicationRead api0) w_down)) =
         [d_SetId (ApplicationID app); d_Set "name" (VString (Name app));
          d_Set "hostid" (VString (HostID app))]))).
Proof.
  assert (Hp : application_read (resourceApplicationRead api0)) by constructor.
  split; [exact Hp|].
  exact (read_writes_only_on_success Server_client _ w_down Hp).
Defined.

(** C10 as it was claimed fails on the resource read of an id the server does
    not hold: nothing matches, and the read writes the id all the same. *)
Lemma zero_match_read_writes :
  application_read (resourceApplicationRead api0) /\
  get_answers (events (run Server_client (resourceApplicationRead api0) w_gone)) =
    [([], None)] /\
  writes (events (run Server_client (resourceApplicationRead api0) w_gone)) =
    [d_SetId ""] /\
  ~ atomic_and_writes_on_single_match d_tracked
      (run Server_client (resourceApplicationRead api0) w_gone).
Proof.
  split; [constructor|]. split; [reflexivity|]. split; [reflexivity|].
  intros [_ Hsingle]. destruct Hsingle as [app Happ].
  - vm_compute. discriminate.
  - vm_compute in Happ. discriminate.
Qed.

(** ** Schemas: what the two adjusting functions do *)

Lemma applicationResourceSchema_lookup (m : gmap string Schema) (k : string) :
  applicationResourceSchema m !! k = mark_required k <$> m !! k.
Proof.
  unfold applicationResourceSchema.
  apply (map_fold_weak_ind
    (fun o m => o !! k = mark_required k <$> m !! k)).
  - by rewrite !lookup_empty.
  - intros i x m' r Hi IH. cbn zeta.
    destruct (decide (i = k)) as [->|Hne].
    + by rewrite !lookup_insert_eq.
    + by rewrite !lookup_insert_ne.
Qed.

Lemma applicationDataSchema_lookup (m : gmap string Schema) (k : string) :
  applicationDataSchema m !! k = m !! k.
Proof.
  unfold applicationDataSchema.
  apply (map_fold_weak_ind (fun o m => o !! k = m !! k)).
  - done.
  - intros i x m' r Hi IH. cbn zeta.
    destruct (decide (i = k)) as [->|Hne].
    + by rewrite !lookup_insert_eq.
    + by rewrite !lookup_insert_ne.
Qed.

(** X1.  applicationResourceSchema keeps the keys of its argument, marks the
    entries of name and hostid as required and changes nothing else. *)
Theorem applicationResourceSchema_marks_required (m : gmap string Schema) :
  dom (applicationResourceSchema m) = dom m /\
  forall (k : string) (s : Schema),
    m !! k = Some s ->
    exists s' : Schema,
      applicationResourceSchema m !! k = Some s' /\
      Required s' =
        (if bool_decide (k = "name" \/ k = "hostid") then true else Required s) /\
      schema_Type s' = schema_Type s /\ Optional s' = Optional s /\
      ForceNew s' = ForceNew s /\ Default s' = Default s /\
      Description s' = Description s /\ ValidateFunc s' = ValidateFunc s /\
      DefaultFunc s' = DefaultFunc s.
Proof.
  split.
  - apply set_eq. intros k. rewrite !elem_of_dom.
    rewrite applicationResourceSchema_lookup. by rewrite fmap_is_Some.
  - intros k s Hk. exists (mark_required k s).
    rewrite applicationResourceSchema_lookup, Hk. split; [done|].
    unfold mark_required.
    destruct (decide (k = "name")) as [->|Hn]; [by repeat split|].
    destruct (decide (k = "hostid")) as [->|Hh]; [by repeat split|].
    rewrite !bool_decide_eq_false_2 by tauto. by repeat split.
Qed.

(** X2.  applicationDataSchema returns a copy equal to its argument. *)
Theorem applicationDataSchema_copy (m : gmap string Schema) :
  applicationDataSchema m = m.
Proof. apply map_eq. intros k. apply applicationDataSchema_lookup. Qed.

(** X3.  A schema whose name and hostid entries, where present, are required
    already comes back unchanged from applicationResourceSchema. *)
Theorem applicationResourceSchema_fixed (m : gmap string Schema) :
  (forall (k : string) (s : Schema),
     m !! k = Some s -> k = "name" \/ k = "hostid" -> Required s = true) ->
  applicationResourceSchema m = m.
Proof.
  intros Hreq. apply map_eq. intros k.
  rewrite applicationResourceSchema_lookup.
  destruct (m !! k) as [s|] eqn:Hk; [|done]. cbn. f_equal.
  unfold mark_required.
  destruct (bool_decide (k = "name") || bool_decide (k = "hostid")) eqn:Hb;
    [|done].
  assert (Hor : k = "name" \/ k = "hostid").
  { apply orb_true_iff in Hb as [?%bool_decide_eq_true|?%bool_decide_eq_true];
      auto. }
  specialize (Hreq k s Hk Hor). destruct s; cbn in *. by subst.
Qed.

(** X4.  applicationResourceSchema is idempotent. *)
Theorem applicationResourceSchema_idempotent (m : gmap string Schema) :
  applicationResourceSchema (applicationResourceSchema m) =
  applicationResourceSchema m.
Proof.
  apply map_eq. intros k. rewrite !applicationResourceSchema_lookup.
  destruct (m !! k) as [s|]; [|done]. cbn. f_equal.
  unfold mark_required.
  by destruct (bool_decide (k = "name") || bool_decide (k = "hostid")).
Qed.

(** ** Further properties of the handlers *)

(** Splits a create into its cases: a failed assertion on hostid or on name,
    the client refusing to create, and the four cases of the closing read. *)
Ltac create_cases client m w :=
  let hostid := fresh "hostid" in
  let name := fresh "name" in
  let new := fresh "new" in
  let err1 := fresh "err1" in
  let s1 := fresh "s1" in
  let e1 := fresh "e1" in
  let apps := fresh "apps" in
  let err := fresh "err" in
  let s2 := fresh "s2" in
  let e2 := fresh "e2" in
  let a0 := fresh "a0" in
  let a1 := fresh "a1" in
  unfold resourceApplicationCreate;
  rewrite run_bind, buildApplicationObject_run;
  destruct (Get (rd w) "hostid") as [| hostid | |];
  [ | destruct (Get (rd w) "name") as [| name | |];
      [ | cbn [prepend ended final events];
          rewrite create_after_build_run; cbn zeta;
          destruct (ApplicationsCreate client m _ (remote w)) as [[new err1] s1];
          cbn [fst snd]; destruct err1 as [e1|];
          [ | rewrite resourceApplicationRead_run, applicationRead_run;
              cbn zeta; cbn [rd remote];
              destruct (ApplicationsGet client m _ s1) as [[apps err] s2];
              destruct err as [e2|]; [|destruct apps as [|a0 [|a1 apps]]] ]
        | | ]
    | | ];
  cbn.

Section Further.
Context {D : Type} {RD : ResourceData D} {API S : Type} (client : Client API S).

Local Abbreviation run := (run client).

(** X5.  Every read of an Application returns, whatever [d] and the client
    answer, and makes exactly one call to the client, an ApplicationsGet. *)
Theorem read_returns_after_one_lookup (p : Prog API (option error))
    (w : World D S) :
  application_read p ->
  returned (ended (run p w)) /\
  exists (m : API) (params : Params),
    client_calls (events (run p w)) = [api_ApplicationsGet m params].
Proof.
  intros Hp. read_cases client p w Hp; (split; [exact I|]); by eexists _, _.
Qed.

(** X6.  A read that found exactly one application returns [nil] whatever
    [d.Set] answers: it sets the id, then name, then hostid from that
    application, and the errors of the two [d.Set] are dropped. *)
Theorem read_one_match_populates (p : Prog API (option error))
    (w : World D S) (found : Application) :
  application_read p ->
  ([found], None) ∈ get_answers (events (run p w)) ->
  ended (run p w) = Returned None /\
  writes (events (run p w)) =
    [d_SetId (ApplicationID found); d_Set "name" (VString (Name found));
     d_Set "hostid" (VString (HostID found))] /\
  rd (final (run p w)) =
    snd (SetField "hostid" (VString (HostID found))
           (snd (SetField "name" (VString (Name found))
                   (SetId (ApplicationID found) (rd w))))).
Proof.
  intros Hp Hin. revert Hin. read_cases client p w Hp;
    intros Hin%list_elem_of_singleton; try discriminate Hin.
  by injection Hin as ->.
Qed.

(** X7.  The resource read looks the application up by the tracked id alone: its
    one client call is ApplicationsGet with the single parameter
    applicationids, holding [d.Id()], and it reads no field of [d]. *)
Theorem resourceApplicationRead_by_id (m : API) (w : World D S) :
  client_calls (events (run (resourceApplicationRead m) w)) =
    [api_ApplicationsGet m {[ "applicationids" := VString (Id (rd w)) ]}] /\
  List.filter is_field_read
    (map call_of (events (run (resourceApplicationRead m) w))) = [].
Proof.
  rewrite resourceApplicationRead_run, applicationRead_run. cbn zeta.
  destruct (ApplicationsGet client m _ (remote w)) as [[apps err] s'].
  destruct err as [e|]; [|destruct apps as [|a0 [|a1 apps]]]; done.
Qed.

(** X8.  When the client refuses to create, resourceApplicationCreate returns
    that error having written nothing and looked nothing up; the resource
    data is as it was. *)
Theorem create_refused_writes_nothing (m : API) (w : World D S)
    (items : list Application) (e : error) :
  (items, Some e) ∈ create_answers (events (run (resourceApplicationCreate m) w)) ->
  ended (run (resourceApplicationCreate m) w) = Returned (Some e) /\
  writes (events (run (resourceApplicationCreate m) w)) = [] /\
  get_answers (events (run (resourceApplicationCreate m) w)) = [] /\
  rd (final (run (resourceApplicationCreate m) w)) = rd w.
Proof.
  create_cases client m w;
    try (by intros ?%elem_of_nil);
    intros Hin%list_elem_of_singleton; try discriminate Hin.
  by injection Hin as -> ->.
Qed.

(** X9.  resourceApplicationCreate is not atomic: when the application was
    created and the closing read then fails, the handler returns the error
    with the id of the created application already set, and nothing else
    written. *)
Theorem create_failed_read_keeps_id (m : API) (w : World D S)
    (item0 : Application) (e : error) :
  create_answers (events (run (resourceApplicationCreate m) w)) =
    [([item0], None)] ->
  ended (run (resourceApplicationCreate m) w) = Returned (Some e) ->
  writes (events (run (resourceApplicationCreate m) w)) =
    [d_SetId (ApplicationID item0)] /\
  rd (final (run (resourceApplicationCreate m) w)) =
    SetId (ApplicationID item0) (rd w).
Proof.
  create_cases client m w; intros Hc He; try discriminate Hc;
    try discriminate He; by injection Hc as <-.
Qed.

(** X10.  When the closing read of a create finds nothing, the handler returns
    [nil] with the id set and then cleared. *)
Theorem create_zero_match_clears_id (m : API) (w : World D S) :
  ([], None) ∈ get_answers (events (run (resourceApplicationCreate m) w)) ->
  ended (run (resourceApplicationCreate m) w) = Returned None /\
  exists item0 : Application,
    create_answers (events (run (resourceApplicationCreate m) w)) =
      [([item0], None)] /\
    writes (events (run (resourceApplicationCreate m) w)) =
      [d_SetId (ApplicationID item0); d_SetId ""] /\
    rd (final (run (resourceApplicationCreate m) w)) =
      SetId "" (SetId (ApplicationID item0) (rd w)).
Proof.
  create_cases client m w;
    try (by intros ?%elem_of_nil);
    intros Hin%list_elem_of_singleton; try discriminate Hin.
  split; [done|]. by eexists.
Qed.

Lemma typed_by_lookup (sch : gmap string Schema) (d : D) (k : string)
    (t : ValueType) :
  typed_by sch d -> schema_Type <$> sch !! k = Some t ->
  has_type (Get d k) t = true.
Proof.
  intros Ht Hk. destruct (sch !! k) as [s|] eqn:Hs; [|discriminate].
  injection Hk as <-. exact (map_Forall_lookup_1 _ _ _ _ Ht Hs).
Qed.


(** X12.  On a resource data that reads as the schema of Provider declares,
    providerConfigure never panics: each setting it asserts is declared with
    the asserted type.  It writes nothing to [d], and calls the client twice:
    NewAPI, then Login. *)
Theorem providerConfigure_typed_returns (w : World D S) :
  typed_by Provider_Schema (rd w) ->
  returned (ended (run providerConfigure w)) /\
  writes (events (run providerConfigure w)) = [] /\
  rd (final (run providerConfigure w)) = rd w /\
  exists (c : Config) (api : API) (user password : string),
    client_calls (events (run providerConfigure w)) =
      [zabbix_NewAPI c; api_Login api user password].
Proof.
  intros Ht.
  assert (H1 : has_type (Get (rd w) "url") TypeString = true).
  { apply (typed_by_lookup _ _ "url" _ Ht). vm_compute. reflexivity. }
  assert (H2 : has_type (Get (rd w) "tls_insecure") TypeBool = true).
  { apply (typed_by_lookup _ _ "tls_insecure" _ Ht). vm_compute. reflexivity. }
  assert (H3 : has_type (Get (rd w) "serialize") TypeBool = true).
  { apply (typed_by_lookup _ _ "serialize" _ Ht). vm_compute. reflexivity. }
  assert (H4 : has_type (Get (rd w) "username") TypeString = true).
  { apply (typed_by_lookup _ _ "username" _ Ht). vm_compute. reflexivity. }
  assert (H5 : has_type (Get (rd w) "password") TypeString = true).
  { apply (typed_by_lookup _ _ "password" _ Ht). vm_compute. reflexivity. }
  clear Ht.
  destruct (Get (rd w) "url") as [|url| |] eqn:E1; try discriminate H1.
  destruct (Get (rd w) "tls_insecure") as [| |tls|] eqn:E2; try discriminate H2.
  destruct (Get (rd w) "serialize") as [| |ser|] eqn:E3; try discriminate H3.
  destruct (Get (rd w) "username") as [|user| |] eqn:E4; try discriminate H4.
  destruct (Get (rd w) "password") as [|pass| |] eqn:E5; try discriminate H5.
  cbn. rewrite E1; cbn. rewrite E2; cbn. rewrite E3; cbn.
  rewrite E4; cbn. rewrite E5; cbn.
  split; [exact I|]. split; [done|]. split; [done|]. by eexists _, _, _, _.
Qed.

(** X13.  No operation on an Application writes anything to [d] but the id and
    the fields name and hostid. *)
Theorem operations_write_id_name_hostid (p : Prog API (option error))
    (w : World D S) :
  application_operation p ->
  forallb is_application_write (writes (events (run p w))) = true.
Proof.
  assert (Hread : forall q : Prog API (option error),
    application_read q ->
    forallb is_application_write (writes (events (run q w))) = true).
  { intros q Hq. read_cases client q w Hq; reflexivity. }
  intros [h m Hin | m params].
  - cbn in Hin.
    repeat (apply elem_of_cons in Hin as [-> | Hin]).
    + create_cases client m w; reflexivity.
    + apply Hread, read_resource.
    + reflexivity.
    + reflexivity.
    + apply Hread, read_data.
    + by apply elem_of_nil in Hin.
  - apply Hread, read_common.
Qed.

(** X14.  Where [d.Id()] gives back what [d.SetId] stored, the closing read of a
    create looks up exactly the id the client assigned to the created
    application. *)
Theorem create_looks_up_assigned_id (m : API) (w : World D S)
    (item0 : Application) :
  (forall (v : string) (d : D), Id (SetId v d) = v) ->
  create_answers (events (run (resourceApplicationCreate m) w)) =
    [([item0], None)] ->
  api_ApplicationsGet m {[ "applicationids" := VString (ApplicationID item0) ]}
    ∈ client_calls (events (run (resourceApplicationCreate m) w)).
Proof.
  intros HId. create_cases client m w; intros Hc; try discriminate Hc;
    injection Hc as <-; rewrite HId;
    apply list_elem_of_further, list_elem_of_here.
Qed.

(** X15.  Where [d.Id()] gives back what [d.SetId] stored and [d.Set] leaves the
    id alone, a delete that follows a create whose read found one
    application asks the client to delete exactly that application. *)
Theorem delete_after_create (m : API) (w : World D S) (found : Application) :
  (forall (v : string) (d : D), Id (SetId v d) = v) ->
  (forall (k : string) (v : value) (d : D), Id (snd (SetField k v d)) = Id d) ->
  get_answers (events (run (resourceApplicationCreate m) w)) =
    [([found], None)] ->
  client_calls
    (events (run (resourceApplicationDelete m)
               (final (run (resourceApplicationCreate m) w)))) =
    [api_ApplicationsDeleteByIds m [ApplicationID found]].
Proof.
  intros HId HSet. create_cases client m w; intros Hg; try discriminate Hg.
  injection Hg as <-. by rewrite !HSet, HId.
Qed.

(** X16.  When [d.GetOk] reports none of the three lookup keys as set,
    dataApplicationRead asks the client with an empty filter. *)
Theorem dataApplicationRead_empty_filter (m : API) (w : World D S) :
  Forall (fun k => snd (GetOk (rd w) k) = false)
    ["applicationid"; "hostid"; "name"] ->
  client_calls (events (run (dataApplicationRead m) w)) =
    [api_ApplicationsGet m {[ "filter" := VMap ∅ ]}].
Proof.
  intros Hnone.
  assert (Hf : filter_of (rd w) lookups ∅ = ∅).
  { unfold filter_of, lookups. cbn.
    inversion Hnone as [|? ? H1 Hnone1]; subst.
    inversion Hnone1 as [|? ? H2 Hnone2]; subst.
    inversion Hnone2 as [|? ? H3 _]; subst.
    by rewrite H1, H2, H3. }
  rewrite dataApplicationRead_run, applicationRead_run, Hf. cbn zeta.
  destruct (ApplicationsGet client m _ (remote w)) as [[apps err] s'].
  destruct err as [e|]; [|destruct apps as [|a0 [|a1 apps]]]; reflexivity.
Qed.

End Further.

(** ** The further properties on the store and the server in memory *)

Lemma applicationResourceSchema_fixed_witness :
  applicationResourceSchema applicationSchemaBase = applicationSchemaBase.
Proof.
  apply (applicationResourceSchema_fixed applicationSchemaBase).
  intros k s Hk [-> | ->]; vm_compute in Hk; injection Hk as <-; reflexivity.
Defined.

Lemma read_returns_after_one_lookup_witness :
  application_read (dataApplicationRead api0) /\
  returned (ended (run Server_client (dataApplicationRead api0) w_by_name)) /\
  exists (m : Config) (params : Params),
    client_calls (events (run Server_client (dataApplicationRead api0) w_by_name)) =
      [api_ApplicationsGet m params].
Proof.
  assert (Hp : application_read (dataApplicationRead api0)) by constructor.
  split; [exact Hp|].
  exact (read_returns_after_one_lookup Server_client _ w_by_name Hp).
Defined.

Lemma read_one_match_populates_witness :
  application_read (resourceApplicationRead api0) /\
  ([mkApplication "1" "10084" "CPU"], None)
    ∈ get_answers (events (run Server_client (resourceApplicationRead api0) w_one)) /\
  ended (run Server_client (resourceApplicationRead api0) w_one) = Returned None /\
  writes (events (run Server_client (resourceApplicationRead api0) w_one)) =
    [d_SetId "1"; d_Set "name" (VString "CPU"); d_Set "hostid" (VString "10084")] /\
  rd (final (run Server_client (resourceApplicationRead api0) w_one)) =
    snd (SetField "hostid" (VString "10084")
           (snd (SetField "name" (VString "CPU") (SetId "1" d_one)))).
Proof.
  assert (Hp : application_read (resourceApplicationRead api0)) by constructor.
  assert (Hin : ([mkApplication "1" "10084" "CPU"], None)
    ∈ get_answers (events (run Server_client (resourceApplicationRead api0) w_one))).
  { vm_compute. left. }
  split; [exact Hp|]. split; [exact Hin|].
  exact (read_one_match_populates Server_client _ w_one _ Hp Hin).
Defined.

Lemma create_refused_writes_nothing_witness :
  ([mkApplication "" "10084" "CPU"], Some unreachable)
    ∈ create_answers
        (events (run Server_client (resourceApplicationCreate api0) w_new_down)) /\
  ended (run Server_client (resourceApplicationCreate api0) w_new_down) =
    Returned (Some unreachable) /\
  writes (events (run Server_client (resourceApplicationCreate api0) w_new_down)) =
    [] /\
  get_answers
    (events (run Server_client (resourceApplicationCreate api0) w_new_down)) = [] /\
  rd (final (run Server_client (resourceApplicationCreate api0) w_new_down)) =
    d_cpu.
Proof.
  assert (Hin : ([mkApplication "" "10084" "CPU"], Some unreachable)
    ∈ create_answers
        (events (run Server_client (resourceApplicationCreate api0) w_new_down))).
  { vm_compute. left. }
  split; [exact Hin|].
  exact (create_refused_writes_nothing Server_client api0 w_new_down _ _ Hin).
Defined.

Lemma create_failed_read_keeps_id_witness :
  (create_answers
     (events (run Server_client (resourceApplicationCreate api0) w_new_stale)) =
     [([mkApplication "1" "10084" "CPU"], None)] /\
   ended (run Server_client (resourceApplicationCreate api0) w_new_stale) =
     Returned (Some (errors_New "multiple applications found"))) /\
  writes (events (run Server_client (resourceApplicationCreate api0) w_new_stale)) =
    [d_SetId "1"] /\
  rd (final (run Server_client (resourceApplicationCreate api0) w_new_stale)) =
    SetId "1" d_cpu.
Proof.
  assert (Hc :
    create_answers
      (events (run Server_client (resourceApplicationCreate api0) w_new_stale)) =
    [([mkApplication "1" "10084" "CPU"], None)]) by (vm_compute; reflexivity).
  assert (He :
    ended (run Server_client (resourceApplicationCreate api0) w_new_stale) =
    Returned (Some (errors_New "multiple applications found")))
    by (vm_compute; reflexivity).
  split; [by split|].
  exact (create_failed_read_keeps_id Server_client api0 w_new_stale _ _ Hc He).
Defined.

Lemma create_zero_match_clears_id_witness :
  ([], None)
    ∈ get_answers (events (run Lossy_client (resourceApplicationCreate api0) w_new)) /\
  ended (run Lossy_client (resourceApplicationCreate api0) w_new) = Returned None /\
  exists item0 : Application,
    create_answers (events (run Lossy_client (resourceApplicationCreate api0) w_new)) =
      [([item0], None)] /\
    writes (events (run Lossy_client (resourceApplicationCreate api0) w_new)) =
      [d_SetId (ApplicationID item0); d_SetId ""] /\
    rd (final (run Lossy_client (resourceApplicationCreate api0) w_new)) =
      SetId "" (SetId (ApplicationID item0) d_cpu).
Proof.
  assert (Hin : ([], None)
    ∈ get_answers (events (run Lossy_client (resourceApplicationCreate api0) w_new))).
  { vm_compute. left. }
  split; [exact Hin|].
  exact (create_zero_match_clears_id Lossy_client api0 w_new Hin).
Defined.


Lemma providerConfigure_typed_returns_witness :
  typed_by Provider_Schema d_provider /\
  returned (ended (run Server_client providerConfigure w_provider)) /\
  writes (events (run Server_client providerConfigure w_provider)) = [] /\
  rd (final (run Server_client providerConfigure w_provider)) = d_provider /\
  exists (c : Config) (api : Config) (user password : string),
    client_calls (events (run Server_client providerConfigure w_provider)) =
      [zabbix_NewAPI c; api_Login api user password].
Proof.
  assert (Ht : typed_by Provider_Schema (rd w_provider)).
  { apply (bool_decide_unpack _). vm_compute. exact I. }
  split; [exact Ht|].
  exact (providerConfigure_typed_returns Server_client w_provider Ht).
Defined.

Lemma operations_write_id_name_hostid_witness :
  application_operation (resourceApplicationCreate api0) /\
  forallb is_application_write
    (writes (events (run Server_client (resourceApplicationCreate api0) w_new))) =
    true.
Proof.
  assert (Hop : application_operation (resourceApplicationCreate api0)).
  { apply (op_handler resourceApplicationCreate api0). cbn.
    apply list_elem_of_here. }
  split; [exact Hop|].
  exact (operations_write_id_name_hostid Server_client _ w_new Hop).
Defined.

Lemma Store_Id_SetId (v : string) (d : Store) : Id (SetId v d) = v.
Proof. reflexivity. Qed.

Lemma Store_Id_SetField (k : string) (v : value) (d : Store) :
  Id (snd (SetField k v d)) = Id d.
Proof.
  cbn. unfold Store_Set. destruct (store_schema d !! k) as [t|]; [|done].
  by destruct (has_type v t).
Qed.

Lemma create_looks_up_assigned_id_witness :
  create_answers (events (run Server_client (resourceApplicationCreate api0) w_new)) =
    [([mkApplication "1" "10084" "CPU"], None)] /\
  api_ApplicationsGet api0 {[ "applicationids" := VString "1" ]}
    ∈ client_calls (events (run Server_client (resourceApplicationCreate api0) w_new)).
Proof.
  assert (Hc :
    create_answers (events (run Server_client (resourceApplicationCreate api0) w_new)) =
    [([mkApplication "1" "10084" "CPU"], None)]) by (vm_compute; reflexivity).
  split; [exact Hc|].
  exact (create_looks_up_assigned_id Server_client api0 w_new _ Store_Id_SetId Hc).
Defined.

Lemma delete_after_create_witness :
  get_answers (events (run Server_client (resourceApplicationCreate api0) w_new)) =
    [([mkApplication "1" "10084" "CPU"], None)] /\
  client_calls
    (events (run Server_client (resourceApplicationDelete api0)
               (final (run Server_client (resourceApplicationCreate api0) w_new)))) =
    [api_ApplicationsDeleteByIds api0 ["1"]].
Proof.
  assert (Hg :
    get_answers (events (run Server_client (resourceApplicationCreate api0) w_new)) =
    [([mkApplication "1" "10084" "CPU"], None)]) by (vm_compute; reflexivity).
  split; [exact Hg|].
  exact (delete_after_create Server_client api0 w_new _
           Store_Id_SetId Store_Id_SetField Hg).
Defined.

Lemma dataApplicationRead_empty_filter_witness :
  Forall (fun k => snd (GetOk d_blank k) = false)
    ["applicationid"; "hostid"; "name"] /\
  client_calls (events (run Server_client (dataApplicationRead api0) w_blank)) =
    [api_ApplicationsGet api0 {[ "filter" := VMap ∅ ]}].
Proof.
  assert (Hnone : Forall (fun k => snd (GetOk (rd w_blank) k) = false)
                    ["applicationid"; "hostid"; "name"]).
  { repeat constructor. }
  split; [exact Hnone|].
  exact (dataApplicationRead_empty_filter Server_client api0 w_blank Hnone).
Defined.
